(** * VeRA adapted linear layer and ReFT parameter accounting

    A shallow embedding of
      - [paddlenlp/peft/vera/vera_layers.py]  (class [VeRALinear]) and
      - [paddlenlp/peft/reft/pareft/reft_model.py]
        ([count_parameters], [ReftModel.print_trainable_parameters]).

    Tensors are matrices over a field [R] of characteristic zero, so every
    statement below is about exact arithmetic; dtype casts ([astype]) are the
    identity in this setting.  A 1-D tensor of length [n] is a row vector
    ['rV[R]_n], a batch of [b] inputs is a matrix ['M[R]_(b, in_features)].

    The framework primitives the layer calls but does not define (the SVD
    routine, element-wise square root, the dropout module) are section
    variables: nothing is assumed about what they compute. *)

From HB Require Import structures.
From Stdlib Require Import String.
From mathcomp Require Import boot order algebra.

Set Implicit Arguments.
Unset Strict Implicit.
Unset Printing Implicit Defensive.

Import GRing.Theory Num.Theory Order.POrderTheory Order.TotalTheory.

(** ** Exceptions and fallible computations *)

Inductive exn :=
  | ValueError_rank          (* "Lora rank r should be a positive integer" *)
  | AssertionError_pissa     (* "pissa method requires vera_alpha=r, scaling=1" *)
  | AssertionError_shape     (* Tensor.set_value with a value of another shape *)
  | ZeroDivisionError.       (* int / int with a zero divisor *)

Inductive result (T : Type) :=
  | OK (x : T)
  | Raise (e : exn).
Arguments Raise {T} e.

Definition bind {T U} (c : result T) (k : T -> result U) : result U :=
  match c with
  | OK x => k x
  | Raise e => Raise e
  end.

Notation "'do' x <- c ; k" := (bind c (fun x => k))
  (at level 200, x name, c at level 100, k at level 200, right associativity).

(** ** Parameters: a value together with its gradient flag *)

Record Tensor (T : Type) := MkTensor {
  data : T;
  stop_gradient : bool
}.

(** [Layer.create_parameter]: a fresh parameter takes part in training. *)
Definition create_parameter {T} (init : T) : Tensor T :=
  {| data := init; stop_gradient := false |}.

(** [Tensor.set_value]: overwrites the numbers, keeps the flag. *)
Definition set_value {T} (p : Tensor T) (v : T) : Tensor T :=
  {| data := v; stop_gradient := stop_gradient p |}.

(** [p.stop_gradient = flag]. *)
Definition set_stop_gradient {T} (p : Tensor T) (flag : bool) : Tensor T :=
  {| data := data p; stop_gradient := flag |}.

(** ** ReFT parameter accounting ([reft_model.py]) *)

(** What the accounting reads of a parameter: [p.numel()] and
    [p.stop_gradient]. *)
Record param := MkParam {
  numel : nat;
  frozen : bool          (* the parameter's [stop_gradient] *)
}.

(** What the accounting reads of a module: [module.parameters()]. *)
Definition module := seq param.

(** [sum(...)] over a generator: starts from 0 and adds from the left. *)
Definition py_sum (xs : seq nat) : nat := foldl addn 0%N xs.

(** [count_parameters(model)]:
    [int(sum(p.numel() for p in model.parameters() if not p.stop_gradient))]. *)
Definition count_parameters (model : module) : nat :=
  py_sum [seq numel p | p <- model & ~~ frozen p].

(** A value of the intervention registry: a tuple whose element [0] is the
    intervention module (the base class never stores an empty one), followed
    by whatever else the base class keeps with it. *)
Definition registry_entry := (module * seq module)%type.

Definition first_module (v : registry_entry) : module := v.1.

(** The numbers [print_trainable_parameters] formats into its log lines. *)
Record report := MkReport {
  trainable_intervention_parameters : nat;
  trainable_model_parameters : nat;
  all_model_parameters : nat;
  total_trainable_parameters : nat;
  trainable_percent : rat
}.

(** [a / b] on two Python ints: true division, raising on a zero divisor. *)
Definition py_truediv (a b : nat) : result rat :=
  if b == 0%N then Raise ZeroDivisionError else OK (a%:R / b%:R)%R.

(** [ReftModel.print_trainable_parameters], for the registry
    [self.interventions] (in [items()] order) and the base model
    [self.model].  The last log line's f-string holds the division, so it is
    evaluated (and may raise) whatever the logger then does with the text. *)
Definition print_trainable_parameters (interventions : seq (string * registry_entry))
    (model : module) : result report :=
  let trainable_intervention_parameters :=
    foldl (fun acc kv => (acc + count_parameters (first_module kv.2))%N) 0%N
      interventions in
  let trainable_model_parameters :=
    py_sum [seq numel p | p <- model & ~~ frozen p] in
  let all_model_parameters := py_sum [seq numel p | p <- model] in
  let total_trainable_parameters :=
    (trainable_intervention_parameters + trainable_model_parameters)%N in
  do percent <- py_truediv (100 * total_trainable_parameters) all_model_parameters;
  OK (MkReport trainable_intervention_parameters trainable_model_parameters
        all_model_parameters total_trainable_parameters percent).

(** *** Properties of the accounting *)

Lemma py_sumE (xs : seq nat) : py_sum xs = \sum_(x <- xs) x.
Proof.
suff H a : foldl addn a xs = a + \sum_(x <- xs) x by rewrite /py_sum H add0n.
elim: xs a => [|x xs IH] a /=; first by rewrite big_nil addn0.
by rewrite IH big_cons addnA.
Qed.

Lemma count_parametersE (model : module) :
  count_parameters model = \sum_(p <- model | ~~ frozen p) numel p.
Proof. by rewrite /count_parameters py_sumE big_map big_filter. Qed.

Lemma intervention_loopE (interventions : seq (string * registry_entry)) a :
  foldl (fun acc kv => (acc + count_parameters (first_module kv.2))%N) a
    interventions
  = (a + \sum_(kv <- interventions) count_parameters (first_module kv.2))%N.
Proof.
elim: interventions a => [|kv kvs IH] a /=; first by rewrite big_nil addn0.
by rewrite IH big_cons addnA.
Qed.

(** The four counts as the specification defines them. *)
Definition trainable_elements (md : module) : nat :=
  \sum_(p <- md | ~~ frozen p) numel p.

Definition all_elements (md : module) : nat := \sum_(p <- md) numel p.

Definition intervention_elements
    (interventions : seq (string * registry_entry)) : nat :=
  \sum_(kv <- interventions) trainable_elements (first_module kv.2).

Lemma print_trainable_parametersE interventions model :
  print_trainable_parameters interventions model =
    let ti := intervention_elements interventions in
    let tm := trainable_elements model in
    let al := all_elements model in
    if al == 0%N then Raise ZeroDivisionError
    else OK (MkReport ti tm al (ti + tm) ((100 * (ti + tm))%:R / al%:R)%R).
Proof.
rewrite /print_trainable_parameters intervention_loopE add0n.
rewrite -/(count_parameters model) count_parametersE py_sumE big_map.
have ->: \sum_(kv <- interventions) count_parameters (first_module kv.2)
         = intervention_elements interventions.
  by apply: eq_bigr => kv _; rewrite count_parametersE.
by rewrite /py_truediv /trainable_elements /all_elements /=; case: ifP.
Qed.

(** The scenario of the specification: a base model of 100 elements, 10 of
    them trainable, and one intervention whose module has 5 trainable
    elements. *)
Definition scenario_model : module := [:: MkParam 10 false; MkParam 90 true].

Definition scenario_interventions : seq (string * registry_entry) :=
  [:: ("layer.0.comp.block_output.unit.pos.nunit.1#0"%string,
       ([:: MkParam 5 false], [::]))].

(** C8. The report holds: the trainable elements of the first module of
    every registry entry, summed; the trainable elements of the base model;
    all elements of the base model; and the sum of the first two.  On the
    scenario above it holds 5, 10, 100, 15, and the percentage 15. *)
Theorem report_counts :
  (forall interventions model rep,
     print_trainable_parameters interventions model = OK rep ->
     [/\ trainable_intervention_parameters rep
           = \sum_(kv <- interventions)
               \sum_(p <- first_module kv.2 | ~~ frozen p) numel p,
         trainable_model_parameters rep
           = \sum_(p <- model | ~~ frozen p) numel p,
         all_model_parameters rep = \sum_(p <- model) numel p,
         total_trainable_parameters rep
           = (trainable_intervention_parameters rep
              + trainable_model_parameters rep)%N
       & trainable_percent rep
           = ((100 * total_trainable_parameters rep)%:R
              / (all_model_parameters rep)%:R)%R])
  /\ print_trainable_parameters scenario_interventions scenario_model
       = OK (MkReport 5 10 100 15 15%:R%R).
Proof.
split=> [interventions model rep|].
  by rewrite print_trainable_parametersE /=; case: ifP => // _ [<-].
rewrite print_trainable_parametersE.
rewrite /intervention_elements /trainable_elements /all_elements.
rewrite /scenario_interventions /scenario_model !big_cons !big_nil /=.
rewrite ?big_cons ?big_nil /= ?addn0.
by congr (OK (MkReport _ _ _ _ _)).
Qed.

(** C9. The report raises the division error exactly when the base model
    has no parameter element at all; with at least one element it runs to
    its end. *)
Theorem report_fails_iff_empty_model interventions model :
  (print_trainable_parameters interventions model = Raise ZeroDivisionError
     <-> \sum_(p <- model) numel p = 0%N)
  /\ ((0 < \sum_(p <- model) numel p)%N ->
       exists rep, print_trainable_parameters interventions model = OK rep).
Proof.
rewrite print_trainable_parametersE /= -/(all_elements model).
case: eqP => [->|/eqP Hal]; first by split.
split; first by split=> // /eqP; rewrite (negbTE Hal).
by move=> _; eexists.
Qed.

(** *** Further properties of the accounting *)

(** Decidable equality on what the report reads, to speak of reordering. *)
Definition param_to_pair (p : param) : nat * bool := (numel p, frozen p).
Definition pair_to_param (x : nat * bool) : param := MkParam x.1 x.2.

Lemma param_pairK : cancel param_to_pair pair_to_param.
Proof. by case. Qed.

HB.instance Definition _ := Equality.copy param (can_type param_pairK).

Lemma intervention_elements_map (interventions : seq (string * registry_entry)) :
  intervention_elements interventions
  = \sum_(md <- [seq first_module kv.2 | kv <- interventions])
      trainable_elements md.
Proof. by rewrite /intervention_elements big_map. Qed.

(** The report reads the registry through the first modules only: two
    registries with the same first modules, in the same order, give the same
    report, whatever their keys and whatever else their tuples hold. *)
Theorem report_reads_first_modules
    (interventions interventions' : seq (string * registry_entry)) model :
  [seq first_module kv.2 | kv <- interventions]
    = [seq first_module kv.2 | kv <- interventions'] ->
  print_trainable_parameters interventions model
  = print_trainable_parameters interventions' model.
Proof.
by move=> H; rewrite !print_trainable_parametersE !intervention_elements_map H.
Qed.

(** Neither the order in which the registry is iterated nor the order in
    which [parameters()] lists the base model's parameters changes the
    report. *)
Theorem report_order_irrelevant
    (interventions interventions' : seq (string * registry_entry))
    (model model' : module) :
  perm_eq [seq first_module kv.2 | kv <- interventions]
          [seq first_module kv.2 | kv <- interventions'] ->
  perm_eq model model' ->
  print_trainable_parameters interventions model
  = print_trainable_parameters interventions' model'.
Proof.
move=> Hi Hm; rewrite !print_trainable_parametersE !intervention_elements_map.
rewrite (perm_big _ Hi) /trainable_elements /all_elements /=.
by rewrite !(perm_big _ Hm).
Qed.

(** In a report, the base model's trainable elements are among all its
    elements. *)
Theorem report_trainable_le_all interventions model rep :
  print_trainable_parameters interventions model = OK rep ->
  trainable_model_parameters rep <= all_model_parameters rep.
Proof.
rewrite print_trainable_parametersE /=; case: ifP => // _ [<-] /=.
rewrite /trainable_elements /all_elements big_mkcond /=.
by apply: leq_sum => p _; case: (frozen p).
Qed.

(** The percentage is taken against the base model alone, so it is at most
    100 exactly when the trainable total (interventions included) does not
    exceed the base model's element count. *)
Theorem report_percent_le_100 interventions model rep :
  print_trainable_parameters interventions model = OK rep ->
  (trainable_percent rep <= 100%:R)%R
  = (total_trainable_parameters rep <= all_model_parameters rep).
Proof.
rewrite print_trainable_parametersE /=; case: ifP => // /negbT Hal [<-] /=.
rewrite -lt0n in Hal.
by rewrite ler_pdivrMr ?ltr0n // -natrM ler_nat leq_pmul2l.
Qed.

Lemma report_trainable_le_all_run :
  exists rep,
    print_trainable_parameters scenario_interventions scenario_model = OK rep
    /\ trainable_model_parameters rep <= all_model_parameters rep.
Proof.
have [rep Hrep]: exists rep,
    print_trainable_parameters scenario_interventions scenario_model = OK rep.
  by rewrite print_trainable_parametersE /all_elements !big_cons big_nil; eexists.
by exists rep; split=> //; apply: report_trainable_le_all Hrep.
Defined.

(** ** The VeRA layer ([vera_layers.py]) *)

Local Open Scope ring_scope.

(** The [vera_dropout] attribute: either the identity lambda or an
    [nn.Dropout(p)] module. *)
Inductive dropout_module (R : Type) :=
  | Identity
  | Dropout (p : R).
Arguments Identity {R}.

(** The rank as the caller passes it: a Python [int], or any other object
    (for which [isinstance(r, int)] is false). *)
Inductive rank_arg :=
  | RInt (z : int)
  | RNotInt.

Definition rank_of (r : rank_arg) : nat :=
  if r is RInt z then `|z|%N else 0%N.

(** "[r] is a positive integer". *)
Definition positive_int (r : rank_arg) : bool :=
  if r is RInt z then (0 < z)%R else false.

Section VeRA.

Variable R : numFieldType.

(** [paddle.linalg.svd(w, full_matrices=False)]: economy form, with
    [k = min(rows, cols)] singular triplets. *)
Variable svd : forall m n : nat,
  'M[R]_(m, n) -> 'M[R]_(m, minn m n) * 'rV[R]_(minn m n) * 'M[R]_(minn m n, n).

(** [paddle.sqrt] on one element. *)
Variable sqrt : R -> R.

(** [nn.Dropout(p)] applied to a batch; the second argument is the module's
    [training] flag.  One call is one (arbitrary) transform of the batch. *)
Variable nn_Dropout : R -> bool -> forall b m : nat, 'M[R]_(b, m) -> 'M[R]_(b, m).

(** *** Tensor operations *)

(** [t * s] for a tensor [t] and a Python float [s]: every element is
    multiplied by [s] on the right. *)
Definition tensor_scale {m n} (t : 'M[R]_(m, n)) (s : R) : 'M[R]_(m, n) :=
  map_mx (fun e => e * s) t.

(** [paddle.diag] of a 1-D tensor. *)
Definition diag {n} (v : 'rV[R]_n) : 'M[R]_n := diag_mx v.

(** A 1-D tensor broadcast over the rows of a batch. *)
Definition broadcast {n} b (v : 'rV[R]_n) : 'M[R]_(b, n) :=
  \matrix_(i, j) v 0 j.

(** [F.linear(x, weight, bias)]: [x @ weight], plus [bias] when there is one. *)
Definition F_linear {b m n} (x : 'M[R]_(b, m)) (weight : 'M[R]_(m, n))
    (bias : option 'rV[R]_n) : 'M[R]_(b, n) :=
  match bias with
  | Some v => x *m weight + broadcast b v
  | None => x *m weight
  end.

(** *** The layer *)

(** The state of an [nn.Linear] right after [nn.Linear.__init__]: a weight
    of shape [in_features, out_features] and, unless [bias_attr=False], a
    bias of shape [out_features]. *)
Record Linear (m n : nat) := MkLinear {
  lin_weight : Tensor 'M[R]_(m, n);
  lin_bias : option (Tensor 'rV[R]_n)
}.

(** [nn.Linear.forward]: [F.linear(input, self.weight, self.bias)]. *)
Definition Linear_forward {m n} (l : Linear m n) {b} (input : 'M[R]_(b, m)) :
    'M[R]_(b, n) :=
  F_linear input (data (lin_weight l)) (omap (@data _) (lin_bias l)).

Record VeRALinear (m n r : nat) := MkVeRALinear {
  weight : Tensor 'M[R]_(m, n);
  bias : option (Tensor 'rV[R]_n);
  vera_alpha : int;
  vera_dropout : dropout_module R;
  merged : bool;
  merge_weights : bool;
  lora_A : Tensor 'M[R]_(m, r);
  lora_B : Tensor 'M[R]_(r, n);
  scaling : R;
  vera_b : Tensor 'rV[R]_n;
  vera_d : Tensor 'rV[R]_r;
  training : bool                      (* nn.Layer's mode flag *)
}.

Section Methods.

Variables m n r : nat.
Implicit Type self : VeRALinear m n r.

(** [self.vera_dropout(input)]. *)
Definition apply_dropout (d : dropout_module R) (mode : bool) {b}
    (x : 'M[R]_(b, m)) : 'M[R]_(b, m) :=
  match d with
  | Identity => x
  | Dropout p => nn_Dropout p mode x
  end.

(** [self.lora_A @ diag_d @ self.lora_B @ diag_b * self.scaling]
    ([@] and [*] have the same precedence and associate to the left). *)
Definition low_rank_update self : 'M[R]_(m, n) :=
  let diag_b := diag (data (vera_b self)) in
  let diag_d := diag (data (vera_d self)) in
  tensor_scale
    (data (lora_A self) *m diag_d *m data (lora_B self) *m diag_b)
    (scaling self).

Definition bias_value self : option 'rV[R]_n :=
  omap (@data _) (bias self).

(** [VeRALinear.forward]. *)
Definition forward self {b} (input : 'M[R]_(b, m)) : 'M[R]_(b, n) :=
  let result := F_linear input (data (weight self)) (bias_value self) in
  if ~~ merged self then
    let diag_b := diag (data (vera_b self)) in
    let diag_d := diag (data (vera_d self)) in
    result +
    tensor_scale
      (apply_dropout (vera_dropout self) (training self) input
         *m data (lora_A self) *m diag_d *m data (lora_B self) *m diag_b)
      (scaling self)
  else result.

(** Attribute assignments. *)
Definition set_training self (mode : bool) : VeRALinear m n r :=
  MkVeRALinear (weight self) (bias self) (vera_alpha self) (vera_dropout self)
    (merged self) (merge_weights self) (lora_A self) (lora_B self)
    (scaling self) (vera_b self) (vera_d self) mode.

Definition set_merged self (flag : bool) : VeRALinear m n r :=
  MkVeRALinear (weight self) (bias self) (vera_alpha self) (vera_dropout self)
    flag (merge_weights self) (lora_A self) (lora_B self)
    (scaling self) (vera_b self) (vera_d self) (training self).

Definition set_weight_value self (w : 'M[R]_(m, n)) : VeRALinear m n r :=
  MkVeRALinear (set_value (weight self) w) (bias self) (vera_alpha self)
    (vera_dropout self) (merged self) (merge_weights self) (lora_A self)
    (lora_B self) (scaling self) (vera_b self) (vera_d self) (training self).

(** [VeRALinear.train]: [super().train()] sets the mode flag, then the layer
    unmerges if it has to. *)
Definition train self : VeRALinear m n r :=
  let self := set_training self true in
  if merge_weights self && merged self then
    let new_weight := data (weight self) - low_rank_update self in
    let self := set_weight_value self new_weight in
    set_merged self false
  else self.

(** [VeRALinear.eval]. *)
Definition eval self : VeRALinear m n r :=
  let self := set_training self false in
  if merge_weights self && ~~ merged self then
    let new_weight := data (weight self) + low_rank_update self in
    let self := set_weight_value self new_weight in
    set_merged self true
  else self.

(** [self.parameters()] as the accounting sees it, in registration order. *)
Definition param_of {p q} (t : Tensor 'M[R]_(p, q)) : param :=
  MkParam (p * q) (stop_gradient t).

Definition parameters self : module :=
  param_of (weight self)
  :: (if bias self is Some b then [:: param_of b] else [::])
  ++ [:: param_of (lora_A self); param_of (lora_B self);
         param_of (vera_b self); param_of (vera_d self)].

(** Mode transitions, and a sequence of them applied in order. *)
Inductive transition := Train | Eval.

Definition step (t : transition) self : VeRALinear m n r :=
  match t with
  | Train => train self
  | Eval => eval self
  end.

Definition run (ts : seq transition) self : VeRALinear m n r :=
  foldl (fun l t => step t l) self ts.

End Methods.

(** *** PiSSA initialisation *)

(** [t[:, :r]], [t[:r]]: Python slices stop at the end of the axis, so the
    result has [min(r, k)] columns (rows). *)
Definition slice_cols {m k} (r : nat) (t : 'M[R]_(m, k)) : 'M[R]_(m, minn r k) :=
  \matrix_(i, j) t i (widen_ord (geq_minr r k) j).

Definition slice_rows {k n} (r : nat) (t : 'M[R]_(k, n)) : 'M[R]_(minn r k, n) :=
  \matrix_(i, j) t (widen_ord (geq_minr r k) i) j.

(** The shape test of [Tensor.set_value]: a value of the parameter's shape is
    accepted as it is, any other raises. *)
Definition with_shape {p q} (p' q' : nat) (t : 'M[R]_(p, q)) : result 'M[R]_(p', q') :=
  match @eqP _ p p', @eqP _ q q' with
  | ReflectT ep, ReflectT eq => OK (castmx (ep, eq) t)
  | _, _ => Raise AssertionError_shape
  end.

Definition set_value_checked {p q p' q'} (param : Tensor 'M[R]_(p', q'))
    (t : 'M[R]_(p, q)) : result (Tensor 'M[R]_(p', q')) :=
  do v <- with_shape p' q' t; OK (set_value param v).

(** [VeRALinear.pissa_init], on the three attributes it reads and writes;
    it returns them in the order [(weight, lora_A, lora_B)]. *)
Definition pissa_init {m n r0} (self_weight : Tensor 'M[R]_(m, n))
    (self_lora_A : Tensor 'M[R]_(m, r0)) (self_lora_B : Tensor 'M[R]_(r0, n))
    (r : nat) :
    result (Tensor 'M[R]_(m, n) * Tensor 'M[R]_(m, r0) * Tensor 'M[R]_(r0, n)) :=
  let weight := data self_weight in
  let '(U, S_, Vh) := svd weight in
  let Ur := slice_cols r U in
  let Sr := slice_cols r S_ in
  let Vhr := slice_rows r Vh in
  let lora_A := Ur *m diag (map_mx sqrt Sr) in
  let lora_B := diag (map_mx sqrt Sr) *m Vhr in
  do self_lora_A <- set_value_checked self_lora_A lora_A;
  do self_lora_B <- set_value_checked self_lora_B lora_B;
  let res := weight - lora_A *m lora_B in
  do self_weight <- set_value_checked self_weight res;
  OK (self_weight, self_lora_A, self_lora_B).

(** *** Construction *)

(** The values the framework's initialisers draw for a tensor of a given
    shape: the default one (used where [create_parameter] is given none) and
    [KaimingUniform(negative_slope=sqrt(5), nonlinearity="leaky_relu")]. *)
Variable default_initializer : forall p q : nat, 'M[R]_(p, q).
Variable KaimingUniform : forall p q : nat, 'M[R]_(p, q).

(** [nn.initializer.Constant(value=c)]. *)
Definition Constant {p q} (c : R) : 'M[R]_(p, q) := const_mx c.

(** [VeRALinear.__init__].  [super] is the layer as [nn.Linear.__init__]
    leaves it (its fresh weight and bias); [base_linear_module] is the donor,
    of which only the weight is read. *)
Definition VeRALinear_init {m n} (super : Linear m n)
    (base_linear_module : Linear m n) (r : rank_arg) (vera_alpha : int)
    (vera_dropout : R) (merge_weights : bool) (pissa : bool) :
    result (VeRALinear m n (rank_of r)) :=
  let weight := set_value (lin_weight super) (data (lin_weight base_linear_module)) in
  match r return result (VeRALinear m n (rank_of r)) with
  | RNotInt => Raise ValueError_rank
  | RInt z =>
    if z <= 0 then Raise ValueError_rank else
    let dropout := if 0 < vera_dropout then Dropout vera_dropout else Identity in
    let merged := false in
    do wab <-
      (if pissa then
         if vera_alpha == z then
           (* the branch's [self.scaling = 1.0] is overwritten below
              before anything reads it *)
           let lora_A := create_parameter (default_initializer m `|z|) in
           let lora_B := create_parameter (default_initializer `|z| n) in
           pissa_init weight lora_A lora_B `|z|
         else Raise AssertionError_pissa
       else
         let lora_A := create_parameter (KaimingUniform m `|z|) in
         let lora_B := create_parameter (Constant 0) in
         OK (weight, lora_A, lora_B));
    let '(weight, lora_A, lora_B) := wab in
    let scaling := vera_alpha%:~R / z%:~R in
    let vera_b := create_parameter (Constant 1) in
    let vera_d := create_parameter (Constant 1) in
    OK (MkVeRALinear (set_stop_gradient weight true) (lin_bias super)
          vera_alpha dropout merged merge_weights lora_A lora_B scaling
          vera_b vera_d true)
  end.

(** ** Properties of the layer *)

Section TensorFacts.

Variables m n : nat.

Lemma tensor_scaleE (t : 'M[R]_(m, n)) (s : R) : tensor_scale t s = s *: t.
Proof. by apply/matrixP => i j; rewrite !mxE mulrC. Qed.

Lemma Constant0 : @Constant m n 0 = 0.
Proof. by apply/matrixP => i j; rewrite !mxE. Qed.

Lemma F_linear_None b (x : 'M[R]_(b, m)) (w : 'M[R]_(m, n)) :
  F_linear x w None = x *m w.
Proof. by []. Qed.

Lemma F_linear_addw b (x : 'M[R]_(b, m)) (w d : 'M[R]_(m, n)) bias :
  F_linear x (w + d) bias = F_linear x w bias + x *m d.
Proof.
case: bias => [v|] /=; rewrite mulmxDr //.
by rewrite -!addrA [x *m d + _]addrC.
Qed.

End TensorFacts.

Section LayerFacts.

Variables m n r : nat.
Implicit Type self : VeRALinear m n r.

(** The adapter's matrix as the specification writes it:
    [lora_A . diag(vera_d) . lora_B . diag(vera_b)]. *)
Definition adapter_matrix self : 'M[R]_(m, n) :=
  data (lora_A self) *m diag_mx (data (vera_d self))
    *m data (lora_B self) *m diag_mx (data (vera_b self)).

(** The affine map [input . weight + bias] (no bias term when the layer has
    no bias). *)
Definition affine self b (input : 'M[R]_(b, m)) : 'M[R]_(b, n) :=
  input *m data (weight self)
  + (if bias self is Some v then broadcast b (data v) else 0).

Lemma low_rank_updateE self :
  low_rank_update self = scaling self *: adapter_matrix self.
Proof. by rewrite /low_rank_update tensor_scaleE. Qed.

Lemma F_linear_affine self b (input : 'M[R]_(b, m)) :
  F_linear input (data (weight self)) (bias_value self) = affine self input.
Proof. by rewrite /affine /bias_value; case: (bias self) => [v|] /=; rewrite ?addr0. Qed.

Lemma forward_low_rank self b (input : 'M[R]_(b, m)) :
  forward self input =
    affine self input
    + (if merged self then 0
       else scaling self *:
              (apply_dropout (vera_dropout self) (training self) input
                 *m adapter_matrix self)).
Proof.
rewrite /forward F_linear_affine /adapter_matrix !mulmxA.
by case: (merged self); rewrite /= ?addr0 ?tensor_scaleE.
Qed.

(** C1. [forward] is the affine map of the stored weight and bias; the
    scaled low-rank term
    [scaling . (dropout(input) . lora_A . diag(vera_d) . lora_B . diag(vera_b))]
    is added exactly when [merged] is false. *)
Theorem forward_spec self b (input : 'M[R]_(b, m)) :
  forward self input =
    if merged self then affine self input
    else affine self input
         + scaling self *:
             (apply_dropout (vera_dropout self) (training self) input
                *m data (lora_A self) *m diag_mx (data (vera_d self))
                *m data (lora_B self) *m diag_mx (data (vera_b self))).
Proof.
rewrite forward_low_rank /adapter_matrix !mulmxA.
by case: (merged self); rewrite ?addr0.
Qed.

Lemma forward_unmerged self b (input : 'M[R]_(b, m)) :
  merged self = false ->
  apply_dropout (vera_dropout self) (training self) input = input ->
  forward self input = affine self input + input *m low_rank_update self.
Proof.
move=> Hm Hd; rewrite forward_low_rank Hm Hd low_rank_updateE.
by rewrite -scalemxAr.
Qed.

(** C2. Merge transparency: from an unmerged layer built with
    [merge_weights], [eval] merges, and the merged layer computes the same
    output as the unmerged one did, the dropout transform being the
    identity on the input. *)
Theorem merge_transparent self b (input : 'M[R]_(b, m)) :
  merge_weights self = true ->
  merged self = false ->
  apply_dropout (vera_dropout self) (training self) input = input ->
  merged (eval self) = true /\ forward (eval self) input = forward self input.
Proof.
move=> Hmw Hm Hd; rewrite (forward_unmerged Hm Hd).
rewrite /eval /= Hmw Hm /=; split=> //.
by rewrite /forward /= F_linear_addw F_linear_affine.
Qed.

(** C4. Entering the mode the layer is already in does not change the
    stored weight: a second [train] (a second [eval]) in a row leaves the
    whole layer, and so its weight, as the first one left it. *)
Theorem same_mode_idempotent self :
  weight (train (train self)) = weight (train self)
  /\ weight (eval (eval self)) = weight (eval self).
Proof.
case: self => w bs al dr mg mw A B sc vb vd tr.
by split; rewrite /train /eval /=; case: mw; case: mg.
Qed.

(** Merging and then unmerging gives back the stored weight. *)
Theorem eval_train_roundtrip self :
  merged self = false ->
  data (weight (train (eval self))) = data (weight self).
Proof.
case: self => w bs al dr mg mw A B sc vb vd tr /= ->.
by rewrite /train /eval /=; case: mw => //=; rewrite /low_rank_update /= addrK.
Qed.

Lemma forward_step (t : transition) self b (input : 'M[R]_(b, m)) :
  vera_dropout self = Identity ->
  forward (step t self) input = forward self input.
Proof.
case: self => w bs al dr mg mw A B sc vb vd tr /= ->.
case: t; rewrite /train /eval /=; case: mw; case: mg => //=.
- rewrite /forward /= F_linear_addw /low_rank_update /= !tensor_scaleE.
  by rewrite mulmxN -scalemxAr !mulmxA addrNK.
- rewrite /forward /= F_linear_addw /low_rank_update /= !tensor_scaleE.
  by rewrite -scalemxAr !mulmxA.
Qed.

Lemma vera_dropout_step (t : transition) self :
  vera_dropout (step t self) = vera_dropout self.
Proof.
case: self => w bs al dr mg mw A B sc vb vd tr.
by case: t; rewrite /= /train /eval /=; case: mw; case: mg.
Qed.

(** Whatever sequence of mode transitions a layer goes through, merging or
    unmerging on the way, its output is the one it had before, when its
    dropout is the identity. *)
Theorem forward_run_invariant (ts : seq transition) self b
    (input : 'M[R]_(b, m)) :
  vera_dropout self = Identity ->
  forward (run ts self) input = forward self input.
Proof.
elim: ts self => [|t ts IH] self Hd //=.
by rewrite IH ?forward_step // vera_dropout_step.
Qed.

(** *** The state machine over whole runs *)

(** The weight with the merged update taken out again. *)
Definition unmerged_weight self : 'M[R]_(m, n) :=
  data (weight self) - (if merged self then low_rank_update self else 0).

Lemma run_ind (P : VeRALinear m n r -> Prop) :
  (forall t self, P self -> P (step t self)) ->
  forall ts self, P self -> P (run ts self).
Proof.
by move=> Hstep; elim=> [|t ts IH] self Hself //=; apply/IH/Hstep.
Qed.

Lemma run_rcons ts t self : run (rcons ts t) self = step t (run ts self).
Proof. by rewrite /run -cats1 foldl_cat. Qed.

Lemma step_frame (t : transition) self :
  [/\ lora_A (step t self) = lora_A self, lora_B (step t self) = lora_B self,
      vera_b (step t self) = vera_b self, vera_d (step t self) = vera_d self
    & bias (step t self) = bias self]
  /\ [/\ scaling (step t self) = scaling self,
         merge_weights (step t self) = merge_weights self,
         vera_alpha (step t self) = vera_alpha self
       & stop_gradient (weight (step t self)) = stop_gradient (weight self)].
Proof.
case: self => w bs al dr mg mw A B sc vb vd tr.
by case: t; rewrite /= /train /eval /=; case: mw; case: mg.
Qed.

Lemma low_rank_update_step (t : transition) self :
  low_rank_update (step t self) = low_rank_update self.
Proof.
by rewrite /low_rank_update; case: (step_frame t self) => -[-> -> -> -> _] [->].
Qed.

Lemma unmerged_weight_step (t : transition) self :
  unmerged_weight (step t self) = unmerged_weight self.
Proof.
rewrite /unmerged_weight low_rank_update_step.
case: self => w bs al dr mg mw A B sc vb vd tr.
case: t; rewrite /= /train /eval /=; case: mw; case: mg => //=.
  by rewrite subr0.
by rewrite addrK subr0.
Qed.


(** Mode transitions leave everything but the weight's value and the two
    flags [merged] and [training] alone: the adapter's tensors, the bias,
    the scaling and the options are the same objects afterwards, and the
    accounting sees the same parameter list. *)
Theorem run_frame (ts : seq transition) self :
  [/\ lora_A (run ts self) = lora_A self, lora_B (run ts self) = lora_B self,
      vera_b (run ts self) = vera_b self, vera_d (run ts self) = vera_d self
    & bias (run ts self) = bias self]
  /\ [/\ scaling (run ts self) = scaling self,
         merge_weights (run ts self) = merge_weights self,
         vera_dropout (run ts self) = vera_dropout self
       & parameters (run ts self) = parameters self].
Proof.
apply: (@run_ind (fun l =>
  [/\ lora_A l = lora_A self, lora_B l = lora_B self,
      vera_b l = vera_b self, vera_d l = vera_d self & bias l = bias self]
  /\ [/\ scaling l = scaling self, merge_weights l = merge_weights self,
         vera_dropout l = vera_dropout self
       & parameters l = parameters self])) => // t l.
case=> -[HA HB Hb Hd Hbs] [Hs Hmw Hdr Hp].
have [[-> -> -> -> ->] [-> -> _ Hw]] := step_frame t l.
rewrite vera_dropout_step; do 2!split=> //.
rewrite -Hp /parameters /param_of Hw.
by have [[-> -> -> -> ->] _] := step_frame t l.
Qed.

(** After a non-empty sequence the mode is the last transition's, and for a
    layer with [merge_weights] the weight is merged exactly when that last
    transition was [eval]. *)
Theorem mode_after_run (ts : seq transition) (t : transition) self :
  training (run (rcons ts t) self) = (if t is Train then true else false)
  /\ (merge_weights self = true ->
      merged (run (rcons ts t) self) = (if t is Eval then true else false)).
Proof.
rewrite run_rcons.
have Hmw: merge_weights (run ts self) = merge_weights self.
  by apply: (@run_ind (fun l => merge_weights l = merge_weights self))
       => // u l <-; case: (step_frame u l) => _ [].
case: (run ts self) Hmw => w bs al dr mg mw A B sc vb vd tr /= ->.
split; first by case: t; rewrite /= /train /eval /=; case: (_ && _).
by move=> ->; case: t; rewrite /= /train /eval /=; case: mg.
Qed.

Lemma broadcast_col_mx b1 b2 (v : 'rV[R]_n) :
  broadcast (b1 + b2) v = col_mx (broadcast b1 v) (broadcast b2 v).
Proof.
apply/matrixP => i j; rewrite !mxE.
by case: (split i) => k; rewrite mxE.
Qed.

(** The rows of a batch are answered independently: the output for two
    batches stacked is the two outputs stacked, as long as no stochastic
    dropout is applied (the layer is merged, or its dropout is the identity
    lambda). *)
Theorem forward_col_mx self b1 b2 (x : 'M[R]_(b1, m)) (y : 'M[R]_(b2, m)) :
  merged self = true \/ vera_dropout self = Identity ->
  forward self (col_mx x y) = col_mx (forward self x) (forward self y).
Proof.
move=> H; rewrite !forward_low_rank /affine.
have ->: (if bias self is Some v then broadcast (b1 + b2) (data v) else 0)
         = col_mx (if bias self is Some v then broadcast b1 (data v) else 0)
             (if bias self is Some v then broadcast b2 (data v) else 0).
  by case: (bias self) => [v|]; rewrite ?broadcast_col_mx ?col_mx0.
have ->: (if merged self then 0
          else scaling self *:
                 (apply_dropout (vera_dropout self) (training self) (col_mx x y)
                    *m adapter_matrix self))
         = col_mx
             (if merged self then 0
              else scaling self *:
                     (apply_dropout (vera_dropout self) (training self) x
                        *m adapter_matrix self))
             (if merged self then 0
              else scaling self *:
                     (apply_dropout (vera_dropout self) (training self) y
                        *m adapter_matrix self)).
  case: H => [->|->] /=; first by rewrite col_mx0.
  by case: (merged self); rewrite ?col_mx0 // mul_col_mx scale_col_mx.
by rewrite mul_col_mx !add_col_mx.
Qed.

End LayerFacts.

(** *** Facts about construction *)

Section ConstructionFacts.

Variables m n : nat.
Variables (super base_linear_module : Linear m n).
Variable dropout_p : R.

Local Notation init r vera_alpha merge_weights_arg pissa :=
  (VeRALinear_init super base_linear_module r vera_alpha dropout_p
     merge_weights_arg pissa).
Local Notation donor_weight := (data (lin_weight base_linear_module)).
Local Notation weight0 := (set_value (lin_weight super) donor_weight).

Lemma with_shape_id p q (t : 'M[R]_(p, q)) : with_shape p q t = OK t.
Proof.
rewrite /with_shape; case: eqP => // ep; case: eqP => // eq.
by rewrite castmx_id.
Qed.

Lemma with_shape_raises p q p' q' (t : 'M[R]_(p, q)) e :
  with_shape p' q' t = Raise e -> e = AssertionError_shape.
Proof.
by rewrite /with_shape; case: eqP => [ep|_]; [case: eqP => [eq|_]|]; case.
Qed.

Lemma with_shape_OK p q p' q' (t : 'M[R]_(p, q)) v :
  with_shape p' q' t = OK v ->
  exists (ep : p = p') (eq : q = q'), v = castmx (ep, eq) t.
Proof.
rewrite /with_shape; case: eqP => [ep|_] //; case: eqP => [eq|_] // [<-].
by exists ep, eq.
Qed.

Lemma with_shape_fits p q p' q' (t : 'M[R]_(p, q)) :
  p = p' -> q = q' -> exists v, with_shape p' q' t = OK v.
Proof.
move=> ep eq; rewrite /with_shape.
by case: eqP => // ep'; case: eqP => // eq'; eexists.
Qed.

Lemma mulmx_castmx p q q' s (e1 : p = p) (e2 e3 : q = q') (e4 : s = s)
    (A : 'M[R]_(p, q)) (B : 'M[R]_(q, s)) :
  castmx (e1, e2) A *m castmx (e3, e4) B = A *m B.
Proof. by case: _ / e2 in e3 *; rewrite !castmx_id. Qed.

(** What a successful [pissa_init] leaves behind: flags untouched, and the
    residual weight plus the product of the two factors is the old weight. *)
Lemma pissa_init_OK r0 (w : Tensor 'M[R]_(m, n)) (a : Tensor 'M[R]_(m, r0))
    (b : Tensor 'M[R]_(r0, n)) r w' a' b' :
  pissa_init w a b r = OK (w', a', b') ->
  [/\ data w' + data a' *m data b' = data w,
      stop_gradient w' = stop_gradient w,
      stop_gradient a' = stop_gradient a &
      stop_gradient b' = stop_gradient b].
Proof.
rewrite /pissa_init; case: (svd _) => [[U S_] Vh].
set A := slice_cols r U *m _; set B := _ *m slice_rows r Vh.
rewrite /set_value_checked.
case E1: (with_shape _ _ A) => [x1|] //=.
case E2: (with_shape _ _ B) => [x2|] //=.
rewrite with_shape_id /= => -[<- <- <-] /=; split=> //.
have [e1 [e2 ->]] := with_shape_OK E1.
have [e3 [e4 ->]] := with_shape_OK E2.
by rewrite mulmx_castmx subrK.
Qed.

Lemma pissa_init_raises r0 (w : Tensor 'M[R]_(m, n)) (a : Tensor 'M[R]_(m, r0))
    (b : Tensor 'M[R]_(r0, n)) r e :
  pissa_init w a b r = Raise e -> e = AssertionError_shape.
Proof.
rewrite /pissa_init; case: (svd _) => [[U S_] Vh].
rewrite /set_value_checked.
case E1: (with_shape _ _ _) => [x1|e1] /=; last first.
  by case=> <-; apply: with_shape_raises E1.
case E2: (with_shape _ _ _) => [x2|e2] /=; last first.
  by case=> <-; apply: with_shape_raises E2.
by rewrite with_shape_id.
Qed.

(** The rank fits the weight: [pissa_init] runs to its end. *)
Lemma pissa_init_total r (w : Tensor 'M[R]_(m, n)) (a : Tensor 'M[R]_(m, r))
    (b : Tensor 'M[R]_(r, n)) :
  (r <= minn m n)%N -> exists out, pissa_init w a b r = OK out.
Proof.
move=> /minn_idPl Hr; rewrite /pissa_init; case: (svd _) => [[U S_] Vh].
set A := slice_cols r U *m _; set B := _ *m slice_rows r Vh.
rewrite /set_value_checked.
have [x1 ->] := with_shape_fits A (erefl m) Hr.
have [x2 ->] /= := with_shape_fits B Hr (erefl n).
by rewrite with_shape_id /=; eexists.
Qed.

(** The layer a successful construction returns, field by field. *)
Lemma VeRALinear_init_OK z vera_alpha merge_weights_arg pissa
    (self : VeRALinear m n (rank_of (RInt z))) :
  init (RInt z) vera_alpha merge_weights_arg pissa = OK self ->
  0 < z /\
  exists w A B,
    (if pissa then
       vera_alpha = z /\
       pissa_init weight0 (create_parameter (default_initializer m `|z|))
         (create_parameter (default_initializer `|z| n)) `|z| = OK (w, A, B)
     else
       (w, A, B) = (weight0, create_parameter (KaimingUniform m `|z|),
                    create_parameter (Constant 0)))
    /\ self = MkVeRALinear (set_stop_gradient w true) (lin_bias super)
                vera_alpha
                (if 0 < dropout_p then Dropout dropout_p else Identity)
                false merge_weights_arg A B (vera_alpha%:~R / z%:~R)
                (create_parameter (Constant 1)) (create_parameter (Constant 1))
                true.
Proof.
rewrite /VeRALinear_init /=; case: lerP => // Hz.
case: pissa => /=.
  case: eqP => // Ha.
  case E: (pissa_init _ _ _ _) => [[[w A] B]|e] //= [<-].
  by split=> //; exists w, A, B.
case=> <-; split=> //.
by eexists _, _, _; split; first reflexivity.
Qed.

(** The default path never raises once the rank is a positive integer. *)
Lemma VeRALinear_init_default z vera_alpha merge_weights_arg :
  0 < z -> exists self, init (RInt z) vera_alpha merge_weights_arg false = OK self.
Proof.
by move=> Hz; rewrite /VeRALinear_init /= leNgt Hz /=; eexists.
Qed.

(** Neither does the PiSSA path, when [vera_alpha = r] and the rank is at
    most both dimensions of the weight. *)
Lemma VeRALinear_init_pissa z merge_weights_arg :
  0 < z -> (`|z| <= minn m n)%N ->
  exists self, init (RInt z) z merge_weights_arg true = OK self.
Proof.
move=> Hz Hr; rewrite /VeRALinear_init /= leNgt Hz /= eqxx.
have [[[w A] B] -> /=] := pissa_init_total weight0
  (create_parameter (default_initializer m `|z|))
  (create_parameter (default_initializer `|z| n)) Hr.
by eexists.
Qed.

Lemma step_unmerged r (t : transition) (self : VeRALinear m n r) :
  merge_weights self = false ->
  step t self = set_training self (if t is Train then true else false).
Proof. by case: self => w bs al dr mg mw A B sc vb vd tr /= ->; case: t. Qed.

Lemma run_unmerged r (ts : seq transition) (self : VeRALinear m n r) :
  merge_weights self = false ->
  exists mode, run ts self = set_training self mode.
Proof.
move=> Hmw; elim: ts self Hmw => [|t ts IH] self Hmw /=.
  by exists (training self); case: self {Hmw}.
rewrite (step_unmerged _ Hmw).
have [mode ->] := IH (set_training self (if t is Train then true else false)) Hmw.
by exists mode.
Qed.

(** C3. After construction with [pissa_init=true] ([vera_b] and [vera_d]
    hold the all-ones values construction gave them), the stored weight plus
    [scaling . lora_A . diag(vera_d) . lora_B . diag(vera_b)] is the donor's
    weight. *)
Theorem pissa_reconstructs_donor r vera_alpha merge_weights_arg
    (self : VeRALinear m n (rank_of r)) :
  init r vera_alpha merge_weights_arg true = OK self ->
  data (weight self) + scaling self *: adapter_matrix self = donor_weight.
Proof.
case: r self => [z|] self //.
case/VeRALinear_init_OK => Hz [w [A [B [[-> Hp] ->]]]] /=.
have [Hw _ _ _] := pissa_init_OK Hp.
rewrite /adapter_matrix /= /Constant !diag_const_mx !mulmx1.
by rewrite divff ?scale1r ?Hw // intr_eq0 gt_eqF.
Qed.

(** C5. Construction raises when the rank is not a positive integer (so
    for [r = 0] and [r = -1]); with [pissa_init=true] it raises whenever
    [vera_alpha] is not [r], with the assertion's error when [r] is a
    positive integer (so for [vera_alpha = 2], [r = 3]); and for a positive
    integer [r] with [vera_alpha = r] neither of the two checks raises. *)
Theorem construction_checks :
  [/\ forall r vera_alpha mw pissa,
        ~~ positive_int r -> init r vera_alpha mw pissa = Raise ValueError_rank,
      forall vera_alpha mw pissa,
        init (RInt 0) vera_alpha mw pissa = Raise ValueError_rank
        /\ init (RInt (-1)) vera_alpha mw pissa = Raise ValueError_rank,
      forall r vera_alpha mw,
        r <> RInt vera_alpha ->
        exists e, init r vera_alpha mw true = Raise e
                  /\ (positive_int r -> e = AssertionError_pissa),
      forall mw, init (RInt 3) 2 mw true = Raise AssertionError_pissa
    & forall z mw pissa,
        0 < z ->
        init (RInt z) z mw pissa <> Raise ValueError_rank
        /\ init (RInt z) z mw pissa <> Raise AssertionError_pissa].
Proof.
split.
- move=> [z|] al mw pissa //=; rewrite -leNgt /VeRALinear_init => ->.
  by [].
- by [].
- move=> [z|] al mw Hne; last by exists ValueError_rank.
  rewrite /VeRALinear_init /=; case: lerP => Hz.
    by exists ValueError_rank; split=> //; rewrite ltNge Hz.
  case: eqP => [Hal|_]; first by case: Hne; rewrite Hal.
  by exists AssertionError_pissa.
- by [].
- move=> z mw pissa Hz; rewrite /VeRALinear_init /= leNgt Hz /=.
  case: pissa => //=; rewrite eqxx.
  case E: (pissa_init _ _ _ _) => [[[w A] B]|e] //=.
  by rewrite (pissa_init_raises E).
Qed.

(** With the default initialisation the low-rank term vanishes ([lora_B] is
    zero), whatever the dropout does: what is left is the affine map of the
    donor's weight and the layer's own bias. *)
Lemma forward_after_default_init r vera_alpha merge_weights_arg
    (self : VeRALinear m n (rank_of r)) b (input : 'M[R]_(b, m)) :
  init r vera_alpha merge_weights_arg false = OK self ->
  forward self input
    = F_linear input donor_weight (omap (@data _) (lin_bias super)).
Proof.
case: r self => [z|] self //.
case/VeRALinear_init_OK => Hz [w [A [B [[-> -> ->] ->]]]].
rewrite /forward /= /bias_value /= tensor_scaleE Constant0.
by rewrite mulmx0 mul0mx scaler0 addr0.
Qed.

(** C6, as the code has it.  With the default initialisation and before any
    parameter update, [forward] is the affine map of the donor's weight and
    of the bias the base [Linear] constructor gave the layer; the
    constructor does not read the donor's bias.  The output is the donor's
    own output whenever those two biases hold the same values. *)
Theorem default_init_forward r vera_alpha merge_weights_arg
    (self : VeRALinear m n (rank_of r)) b (input : 'M[R]_(b, m)) :
  init r vera_alpha merge_weights_arg false = OK self ->
  forward self input
    = F_linear input donor_weight (omap (@data _) (lin_bias super))
  /\ (omap (@data _) (lin_bias super)
        = omap (@data _) (lin_bias base_linear_module) ->
      forward self input = Linear_forward base_linear_module input).
Proof.
move=> Hinit; rewrite (forward_after_default_init _ Hinit).
by split=> // Hb; rewrite /Linear_forward -Hb.
Qed.

(** C7. A layer constructed with [merge_weights=false] keeps its stored
    weight and [merged = false] through every sequence of [train]/[eval]
    transitions, and [forward] adds the low-rank term after each of them. *)
Theorem no_merge_frame r vera_alpha pissa
    (self : VeRALinear m n (rank_of r)) (ts : seq transition) :
  init r vera_alpha false pissa = OK self ->
  [/\ weight (run ts self) = weight self,
      merged (run ts self) = false
    & forall b (input : 'M[R]_(b, m)),
        forward (run ts self) input
        = affine (run ts self) input
          + scaling self *:
              (apply_dropout (vera_dropout self) (training (run ts self)) input
                 *m data (lora_A self) *m diag_mx (data (vera_d self))
                 *m data (lora_B self) *m diag_mx (data (vera_b self)))].
Proof.
move=> Hinit.
have [Hmw Hm]: merge_weights self = false /\ merged self = false.
  case: r self Hinit => [z|] self //.
  by case/VeRALinear_init_OK => _ [w [A [B [_ ->]]]].
have [mode Hrun] := run_unmerged ts Hmw.
split=> [||b input]; rewrite ?Hrun //.
by rewrite forward_low_rank /= Hm /adapter_matrix !mulmxA.
Qed.

(** C10. Construction sets [stop_gradient] on the weight and on nothing
    else: the bias is the one the base constructor made, flag included, and
    when that flag is off the accounting counts the bias among the layer's
    trainable elements (with the two factors and the two scaling vectors). *)
Theorem init_freezes_weight_only r vera_alpha merge_weights_arg pissa
    (self : VeRALinear m n (rank_of r)) :
  init r vera_alpha merge_weights_arg pissa = OK self ->
  [/\ stop_gradient (weight self) = true,
      bias self = lin_bias super
    & forall bias0,
        lin_bias super = Some bias0 ->
        count_parameters (parameters self)
        = ((if stop_gradient bias0 then 0 else n)
           + (m * rank_of r + rank_of r * n + n + rank_of r))%N].
Proof.
case: r self => [z|] self //.
case/VeRALinear_init_OK => Hz [w [A [B [Hwab ->]]]] /=.
split=> // bias0 Hb.
have [HA HB]: stop_gradient A = false /\ stop_gradient B = false.
  case: pissa Hwab => [[_ /pissa_init_OK [_ _ -> ->]] //|[_ -> ->] //].
rewrite count_parametersE /parameters /= Hb /= !big_cons big_nil /= HA HB /=.
by case: (stop_gradient bias0); rewrite /= !mul1n ?add0n addn0 !addnA.
Qed.

(** *** When construction succeeds, and what PiSSA stores *)

Lemma with_shape_mismatch p q p' q' (t : 'M[R]_(p, q)) :
  q <> q' -> with_shape p' q' t = Raise AssertionError_shape.
Proof.
by move=> Hq; rewrite /with_shape; case: eqP => // ep; case: eqP.
Qed.




(** What [pissa_init] stores, when the square root it is given is one on
    the singular values ([sqrt(s) * sqrt(s) = s]): the product of the two
    factors is the rank-[r] truncation [Ur . diag(Sr) . Vhr] of the
    decomposition, the weight is what is left of the old weight without it,
    and nothing is left when the truncation already is the old weight. *)
Theorem pissa_init_truncated_svd r0 (w : Tensor 'M[R]_(m, n))
    (a : Tensor 'M[R]_(m, r0)) (b : Tensor 'M[R]_(r0, n)) r U S_ Vh w' a' b' :
  svd (data w) = (U, S_, Vh) ->
  (forall j, sqrt (S_ 0 j) * sqrt (S_ 0 j) = S_ 0 j) ->
  pissa_init w a b r = OK (w', a', b') ->
  let truncation :=
    slice_cols r U *m diag_mx (slice_cols r S_) *m slice_rows r Vh in
  [/\ data a' *m data b' = truncation,
      data w' = data w - truncation
    & truncation = data w -> data w' = 0].
Proof.
move=> Hsvd Hsqrt Hinit.
have [Hw _ _ _] := pissa_init_OK Hinit.
have Hab: data a' *m data b'
          = slice_cols r U *m diag_mx (slice_cols r S_) *m slice_rows r Vh.
  move: Hinit; rewrite /pissa_init Hsvd /set_value_checked.
  case E1: (with_shape _ _ _) => [x1|] //=.
  case E2: (with_shape _ _ _) => [x2|] //=.
  rewrite with_shape_id /= => -[_ <- <-] /=.
  have [e1 [e2 ->]] := with_shape_OK E1.
  have [e3 [e4 ->]] := with_shape_OK E2.
  rewrite mulmx_castmx /diag !mulmxA -[_ *m diag_mx _ *m diag_mx _]mulmxA.
  rewrite mulmx_diag; congr (_ *m diag_mx _ *m _).
  by apply/rowP => j; rewrite !mxE Hsqrt.
have Hres: data w' = data w
             - slice_cols r U *m diag_mx (slice_cols r S_) *m slice_rows r Vh.
  by rewrite -Hab -Hw addrK.
by split=> // Heq; rewrite Hres Heq subrr.
Qed.

(** The zero-initialised adapter stays a no-op through every sequence of
    mode transitions: merging adds a zero update, so after any run the
    default-initialised layer still computes the affine map of the donor's
    weight and its own bias, whatever the dropout does. *)
Theorem default_init_forward_stable r vera_alpha mw
    (self : VeRALinear m n (rank_of r)) (ts : seq transition)
    b (input : 'M[R]_(b, m)) :
  init r vera_alpha mw false = OK self ->
  forward (run ts self) input
  = F_linear input donor_weight (omap (@data _) (lin_bias super)).
Proof.
move=> Hinit.
have [HB [Hw Hbias]]:
    data (lora_B self) = 0
    /\ data (weight self) = donor_weight /\ bias self = lin_bias super.
  case: r self Hinit => [z|] self //.
  case/VeRALinear_init_OK => Hz [w [A [B [[-> -> ->] ->]]]] /=.
  by rewrite Constant0.
have Hinv: data (lora_B (run ts self)) = 0
           /\ data (weight (run ts self)) = donor_weight
           /\ bias (run ts self) = lin_bias super.
  apply: (@run_ind _ _ _ (fun l => data (lora_B l) = 0
            /\ data (weight l) = donor_weight /\ bias l = lin_bias super))
    => // t l [HBl [Hwl Hbl]].
  have [[_ HBs _ _ Hbs] _] := step_frame t l.
  rewrite HBs Hbs; split=> //; split=> //.
  have: unmerged_weight (step t l) = unmerged_weight l.
    exact: unmerged_weight_step.
  rewrite /unmerged_weight low_rank_update_step.
  have ->: low_rank_update l = 0.
    by rewrite low_rank_updateE /adapter_matrix HBl mulmx0 mul0mx scaler0.
  by rewrite !if_same !subr0 Hwl.
case: Hinv => HBr [Hwr Hbr].
rewrite forward_low_rank /affine Hwr Hbr /adapter_matrix HBr.
rewrite mulmx0 mul0mx mulmx0 scaler0 if_same addr0.
by case: (lin_bias super) => [v|] //=; rewrite addr0.
Qed.

(** A PiSSA-initialised layer built with [merge_weights], once put in
    evaluation mode, holds exactly the donor's weight again: merging adds
    back the product that initialisation took out. *)
Theorem pissa_eval_restores_donor r vera_alpha
    (self : VeRALinear m n (rank_of r)) :
  init r vera_alpha true true = OK self ->
  merged (eval self) = true /\ data (weight (eval self)) = donor_weight.
Proof.
case: r self => [z|] self //.
case/VeRALinear_init_OK => Hz [w [A [B [[-> Hp] ->]]]] /=.
have [Hw _ _ _] := pissa_init_OK Hp.
rewrite /eval /=; split=> //=.
rewrite /low_rank_update /= tensor_scaleE /Constant /diag !diag_const_mx.
by rewrite !mulmx1 divff ?scale1r ?Hw // intr_eq0 gt_eqF.
Qed.


End ConstructionFacts.

End VeRA.

(** ** Concrete runs

    One-by-one tensors over the rationals.  The primitives are instantiated
    by functions that are right on the values these runs meet: the SVD of a
    non-negative diagonal matrix, and the square root of 0, 1 and 4. *)

Section Runs.

Definition svd_run (m n : nat) (w : 'M[rat]_(m, n)) :
    'M[rat]_(m, minn m n) * 'rV[rat]_(minn m n) * 'M[rat]_(minn m n, n) :=
  (pid_mx (minn m n),
   \row_j w (widen_ord (geq_minl m n) j) (widen_ord (geq_minr m n) j),
   pid_mx (minn m n)).

Definition sqrt_run (x : rat) : rat := if x == 4%:R then 2%:R else x.

(** A dropout that zeroes the whole batch in training mode and is the
    identity in evaluation mode. *)
Definition dropout_run (p : rat) (mode : bool) (b m : nat)
    (x : 'M[rat]_(b, m)) : 'M[rat]_(b, m) :=
  if mode then 0 else x.

Definition default_run (p q : nat) : 'M[rat]_(p, q) := const_mx (1 / 3%:R).
Definition kaiming_run (p q : nat) : 'M[rat]_(p, q) := const_mx (1 / 2%:R).

(** The donor: weight [[4]], bias [1]. *)
Definition donor_run : Linear rat 1 1 :=
  MkLinear (MkTensor (const_mx 4%:R) false) (Some (MkTensor (const_mx 1) false)).

(** The layer as [nn.Linear.__init__] leaves it: some fresh weight, and the
    zero bias of the framework's default bias initialiser. *)
Definition super_run : Linear rat 1 1 :=
  MkLinear (MkTensor (const_mx (1 / 5%:R)) false)
           (Some (MkTensor (const_mx 0) false)).

Definition init_run (merge_weights_arg pissa : bool) :
    result (VeRALinear rat 1 1 (rank_of (RInt 1))) :=
  VeRALinear_init svd_run sqrt_run default_run kaiming_run super_run donor_run
    (RInt 1) 1 0 merge_weights_arg pissa.

(** An unmerged layer in training mode, with trained factors. *)
Definition layer_run : VeRALinear rat 1 1 1 :=
  MkVeRALinear (MkTensor (const_mx 2%:R) true) (Some (MkTensor (const_mx 1) false))
    1 Identity false true
    (MkTensor (const_mx 3%:R) false) (MkTensor (const_mx 5%:R) false) 1
    (MkTensor (const_mx 7%:R) false) (MkTensor (const_mx 1) false) true.

Definition input_run : 'M[rat]_(1, 1) := const_mx 1.

End Runs.

Lemma merge_transparent_run :
  merged (eval layer_run) = true
  /\ forward dropout_run (eval layer_run) input_run
     = forward dropout_run layer_run input_run.
Proof.
by apply: (@merge_transparent rat dropout_run 1 1 1 layer_run 1 input_run).
Defined.

Lemma init_run_default mw : exists self, init_run mw false = OK self.
Proof. exact: VeRALinear_init_default. Qed.

Lemma init_run_pissa mw : exists self, init_run mw true = OK self.
Proof. exact: VeRALinear_init_pissa. Qed.

Lemma pissa_reconstructs_donor_run :
  exists self,
    init_run true true = OK self
    /\ data (weight self) + scaling self *: adapter_matrix self
       = data (lin_weight donor_run).
Proof.
have [self Hself] := init_run_pissa true.
exists self; split=> //; rewrite /init_run in Hself.
exact: (pissa_reconstructs_donor (r := RInt 1) Hself).
Defined.

Lemma default_init_forward_run :
  exists self,
    init_run true false = OK self
    /\ forward dropout_run self input_run
       = F_linear input_run (data (lin_weight donor_run))
           (omap (@data _) (lin_bias super_run)).
Proof.
have [self Hself] := init_run_default true.
exists self; split=> //; rewrite /init_run in Hself.
by have [] := default_init_forward dropout_run (r := RInt 1) input_run Hself.
Defined.

(** The claim as the specification words it fails on this run: the donor's
    bias is 1, the constructed layer's bias is the fresh zero one, so on the
    input [[1]] the layer answers [[4]] and the donor [[5]]. *)
Lemma default_init_ignores_donor_bias :
  exists self,
    init_run true false = OK self
    /\ forward dropout_run self input_run <> Linear_forward donor_run input_run.
Proof.
have [self Hself] := init_run_default true.
exists self; split=> //; rewrite /init_run in Hself.
rewrite (forward_after_default_init dropout_run (r := RInt 1) input_run Hself).
rewrite /Linear_forward /= => /(congr1 (fun t : 'M[rat]_(1, 1) => t 0 0)).
by rewrite !mxE => /addrI /eqP; rewrite eq_sym oner_eq0.
Defined.

Lemma no_merge_frame_run :
  exists self,
    init_run false false = OK self
    /\ [/\ weight (run [:: Eval; Train; Eval] self) = weight self,
           merged (run [:: Eval; Train; Eval] self) = false
         & forall b (input : 'M[rat]_(b, 1)),
             forward dropout_run (run [:: Eval; Train; Eval] self) input
             = affine (run [:: Eval; Train; Eval] self) input
               + scaling self *:
                   (apply_dropout dropout_run (vera_dropout self)
                      (training (run [:: Eval; Train; Eval] self)) input
                      *m data (lora_A self) *m diag_mx (data (vera_d self))
                      *m data (lora_B self) *m diag_mx (data (vera_b self)))].
Proof.
have [self Hself] := init_run_default false.
exists self; split=> //; rewrite /init_run in Hself.
exact: (no_merge_frame dropout_run (r := RInt 1) [:: Eval; Train; Eval] Hself).
Defined.

Lemma init_freezes_weight_only_run :
  exists self,
    init_run true true = OK self
    /\ [/\ stop_gradient (weight self) = true,
           bias self = lin_bias super_run
         & forall bias0,
             lin_bias super_run = Some bias0 ->
             count_parameters (parameters self)
             = ((if stop_gradient bias0 then 0 else 1)
                + (1 * rank_of (RInt 1) + rank_of (RInt 1) * 1 + 1
                   + rank_of (RInt 1)))%N].
Proof.
have [self Hself] := init_run_pissa true.
exists self; split=> //; rewrite /init_run in Hself.
exact: (init_freezes_weight_only (r := RInt 1) Hself).
Defined.

Lemma eval_train_roundtrip_run :
  data (weight (train (eval layer_run))) = data (weight layer_run).
Proof. by apply: (@eval_train_roundtrip rat 1 1 1 layer_run). Defined.

Lemma forward_run_invariant_run :
  forward dropout_run (run [:: Eval; Eval; Train; Eval] layer_run) input_run
  = forward dropout_run layer_run input_run.
Proof.
by apply: (forward_run_invariant dropout_run [:: Eval; Eval; Train; Eval]
             (self := layer_run) input_run).
Defined.

(** *** Runs for the further properties *)

Lemma report_reads_first_modules_run :
  print_trainable_parameters scenario_interventions scenario_model
  = print_trainable_parameters
      [:: ("another.key"%string, ([:: MkParam 5 false], [:: [:: MkParam 7 false]]))]
      scenario_model.
Proof. by apply: report_reads_first_modules. Defined.

Lemma report_order_irrelevant_run :
  print_trainable_parameters
    [:: ("a"%string, ([:: MkParam 5 false], [::]));
        ("b"%string, ([:: MkParam 3 true; MkParam 2 false], [::]))]
    scenario_model
  = print_trainable_parameters
      [:: ("b"%string, ([:: MkParam 3 true; MkParam 2 false], [::]));
          ("a"%string, ([:: MkParam 5 false], [::]))]
      (rev scenario_model).
Proof. by apply: report_order_irrelevant. Defined.

Lemma report_percent_le_100_run :
  exists rep,
    print_trainable_parameters scenario_interventions scenario_model = OK rep
    /\ (trainable_percent rep <= 100%:R)
       = (total_trainable_parameters rep <= all_model_parameters rep)%N.
Proof.
have [rep Hrep]: exists rep,
    print_trainable_parameters scenario_interventions scenario_model = OK rep.
  by rewrite print_trainable_parametersE /all_elements !big_cons big_nil; eexists.
by exists rep; split=> //; apply: report_percent_le_100 Hrep.
Defined.

Lemma forward_col_mx_run :
  forward dropout_run layer_run (col_mx input_run input_run)
  = col_mx (forward dropout_run layer_run input_run)
      (forward dropout_run layer_run input_run).
Proof. by apply: forward_col_mx; right. Defined.


Lemma pissa_init_truncated_svd_run :
  exists w' a' b',
    pissa_init svd_run sqrt_run (lin_weight donor_run)
      (create_parameter (default_run 1 1)) (create_parameter (default_run 1 1)) 1
    = OK (w', a', b')
    /\ [/\ data a' *m data b'
           = slice_cols 1 (svd_run (data (lin_weight donor_run))).1.1
               *m diag_mx (slice_cols 1 (svd_run (data (lin_weight donor_run))).1.2)
               *m slice_rows 1 (svd_run (data (lin_weight donor_run))).2,
           data w'
           = data (lin_weight donor_run)
             - slice_cols 1 (svd_run (data (lin_weight donor_run))).1.1
                 *m diag_mx (slice_cols 1 (svd_run (data (lin_weight donor_run))).1.2)
                 *m slice_rows 1 (svd_run (data (lin_weight donor_run))).2
         & slice_cols 1 (svd_run (data (lin_weight donor_run))).1.1
             *m diag_mx (slice_cols 1 (svd_run (data (lin_weight donor_run))).1.2)
             *m slice_rows 1 (svd_run (data (lin_weight donor_run))).2
           = data (lin_weight donor_run) -> data w' = 0].
Proof.
have [[[w' a'] b'] Hinit] :=
  pissa_init_total svd_run sqrt_run (lin_weight donor_run)
    (create_parameter (default_run 1 1)) (create_parameter (default_run 1 1))
    (leqnn 1).
exists w', a', b'; split=> //.
apply: (pissa_init_truncated_svd (sqrt := sqrt_run) _ _ Hinit); first by [].
move=> j; rewrite !mxE /sqrt_run eqxx.
by rewrite -natrM.
Defined.

Lemma default_init_forward_stable_run :
  exists self,
    init_run true false = OK self
    /\ forward dropout_run (run [:: Eval; Train; Eval] self) input_run
       = F_linear input_run (data (lin_weight donor_run))
           (omap (@data _) (lin_bias super_run)).
Proof.
have [self Hself] := init_run_default true.
exists self; split=> //; rewrite /init_run in Hself.
exact: (default_init_forward_stable dropout_run (r := RInt 1)
          [:: Eval; Train; Eval] input_run Hself).
Defined.

Lemma pissa_eval_restores_donor_run :
  exists self,
    init_run true true = OK self
    /\ (merged (eval self) = true
        /\ data (weight (eval self)) = data (lin_weight donor_run)).
Proof.
have [self Hself] := init_run_pissa true.
exists self; split=> //; rewrite /init_run in Hself.
exact: (pissa_eval_restores_donor (r := RInt 1) Hself).
Defined.

